(** * couchbase-python-client: the binding shim's query helpers and the
    analytics-management operation catalogue

  A shallow embedding of

    - [src/n1ql.hxx]: the scan-consistency and profile-mode string helpers;
    - [src/management/analytics_management.hxx]: the class
      [AnalyticsManagementOperations], the struct [analytics_mgmt_options]
      and the declaration of [handle_analytics_mgmt_op].

  C++ values are modelled as the code has them: [std::string] as [string],
  an unscoped enum as an inductive type together with its underlying integer
  value, [std::chrono::milliseconds] as a count in [Z], the argument bag
  (a Python dict) as a [gmap string _], and the CPython error indicator as
  explicit state threaded through a small state monad. *)

From Stdlib Require Import ZArith Lia Ascii String.
From stdpp Require Import base option list strings gmap.

#[local] Open Scope string_scope.
#[local] Open Scope Z_scope.

(** ** The CPython error indicator *)

Module Python.

(** Exception classes. The sources under study raise [PyExc_ValueError] only;
    [PyExc_named] stands for any other class that may already be pending. *)
Inductive PyExc : Type :=
| PyExc_ValueError
| PyExc_named (name : string).

(** A pending exception. [mkPyErr] is an exception of the given class whose
    message is the given text. [undecodable] is what a failed decoding of
    the message bytes leaves behind: through CPython 3.11 an exception of
    the requested class without a message, from 3.12 on the
    [UnicodeDecodeError] of the decoder. *)
Inductive PyErr : Type :=
| mkPyErr (exc_type : PyExc) (exc_message : string)
| undecodable (requested : PyExc) (bytes : string).

(** Strict UTF-8, as [PyUnicode_FromString] decodes it: a recogniser that
    reads one byte at a time. Outside a code point it is in [utf8_start];
    the other states say what must follow the bytes read so far. *)
Inductive utf8_state : Type :=
| utf8_start
| utf8_tail1
| utf8_tail2
| utf8_tail3
| utf8_after_E0
| utf8_after_ED
| utf8_after_F0
| utf8_after_F4.

Definition between (lo hi b : N) : bool := ((lo <=? b) && (b <=? hi))%N.

Definition utf8_step (q : utf8_state) (b : N) : option utf8_state :=
  match q with
  | utf8_start =>
      if (b <=? 0x7F)%N then Some utf8_start
      else if between 0xC2 0xDF b then Some utf8_tail1
      else if (b =? 0xE0)%N then Some utf8_after_E0
      else if between 0xE1 0xEC b || between 0xEE 0xEF b then Some utf8_tail2
      else if (b =? 0xED)%N then Some utf8_after_ED
      else if (b =? 0xF0)%N then Some utf8_after_F0
      else if between 0xF1 0xF3 b then Some utf8_tail3
      else if (b =? 0xF4)%N then Some utf8_after_F4
      else None
  | utf8_tail1 => if between 0x80 0xBF b then Some utf8_start else None
  | utf8_tail2 => if between 0x80 0xBF b then Some utf8_tail1 else None
  | utf8_tail3 => if between 0x80 0xBF b then Some utf8_tail2 else None
  | utf8_after_E0 => if between 0xA0 0xBF b then Some utf8_tail1 else None
  | utf8_after_ED => if between 0x80 0x9F b then Some utf8_tail1 else None
  | utf8_after_F0 => if between 0x90 0xBF b then Some utf8_tail2 else None
  | utf8_after_F4 => if between 0x80 0x8F b then Some utf8_tail2 else None
  end.

Fixpoint utf8_run (q : utf8_state) (s : string) : bool :=
  match s with
  | EmptyString => match q with utf8_start => true | _ => false end
  | String c rest =>
      match utf8_step q (N_of_ascii c) with
      | Some q' => utf8_run q' rest
      | None => false
      end
  end.

Definition valid_utf8 (s : string) : bool := utf8_run utf8_start s.

(** The per-thread error indicator: [None] when no exception is pending. *)
Definition indicator : Type := option PyErr.

(** Code that may touch the error indicator. *)
Definition Py (A : Type) : Type := indicator -> A * indicator.

Definition ret {A} (a : A) : Py A := fun st => (a, st).

Definition bind {A B} (m : Py A) (k : A -> Py B) : Py B :=
  fun st => let '(a, st') := m st in k a st'.

Definition value_of {A} (m : Py A) (st : indicator) : A := fst (m st).
Definition pending_after {A} (m : Py A) (st : indicator) : indicator := snd (m st).

(** [const char*] view of a [std::string]: the bytes before the first NUL. *)
Fixpoint c_str (s : string) : string :=
  match s with
  | EmptyString => EmptyString
  | String c rest =>
      if Ascii.eqb c Ascii.zero then EmptyString else String c (c_str rest)
  end.

(** [PyErr_SetString(type, message)]: decodes the C string [message] as
    UTF-8 and raises [type] with that text, replacing whatever was pending;
    when the decoding fails, an exception is pending all the same. *)
Definition PyErr_SetString (type : PyExc) (message : string) : Py unit :=
  fun _ =>
    (tt, Some (if valid_utf8 message then mkPyErr type message
               else undecodable type message)).

(** [PyErr_Occurred() != NULL] *)
Definition PyErr_Occurred : Py bool :=
  fun st => (match st with Some _ => true | None => false end, st).

End Python.

Notation "m ;;; k" := (Python.bind m (fun _ => k))
  (at level 62, right associativity).

(** ** The fragments of the C++ standard library and of {fmt} that are used *)

Module Cxx.

(** [std::string::compare]: negative, zero or positive. *)
Definition compare (a b : string) : Z :=
  match String.compare a b with
  | Lt => -1
  | Eq => 0
  | Gt => 1
  end.

(** [fmt::format(f, args...)] restricted to the bare replacement field: each
    occurrence of an opening brace directly followed by a closing brace is
    replaced by the next argument. *)
Fixpoint format (f : string) (args : list string) : string :=
  match f with
  | String "{"%char (String "}"%char rest) =>
      match args with
      | a :: args' => a +:+ format rest args'
      | [] => format rest []
      end
  | String c rest => String c (format rest args)
  | EmptyString => EmptyString
  end.

End Cxx.

(** ** [n1ql.hxx] *)

Module N1ql.
Import Python.

(** The template parameter of [str_to_scan_consistency_type]: an enumeration
    with the enumerators [not_bounded] and [request_plus]; [value_init] is
    what the braces of [return {};] build. *)
Class ScanConsistencyType (T : Type) : Type := {
  not_bounded : T;
  request_plus : T;
  value_init : T
}.

Definition str_to_scan_consistency_type {T} `{ScanConsistencyType T}
    (consistency : string) : Py T :=
  if Cxx.compare consistency "not_bounded" =? 0 then ret not_bounded
  else if Cxx.compare consistency "request_plus" =? 0 then ret request_plus
  else
    PyErr_SetString PyExc_ValueError
      (c_str (Cxx.format "Invalid Scan Consistency type {}" [consistency])) ;;;
    ret value_init.

(** [couchbase::query_scan_consistency] of the native client: the two
    enumerators in this order, so that value-initialisation (underlying
    value zero) is the first one. *)
Inductive query_scan_consistency : Type :=
| qsc_not_bounded
| qsc_request_plus.

#[export] Instance query_scan_consistency_type :
  ScanConsistencyType query_scan_consistency :=
  {| not_bounded := qsc_not_bounded;
     request_plus := qsc_request_plus;
     value_init := qsc_not_bounded |}.

(** Modelled from the spec: the body of [scan_consistency_type_to_string],
    which [n1ql.hxx] only declares. The spec makes the consistency mode
    "bidirectionally convertible to/from a canonical string token" over the
    enumeration {not_bounded, request_plus}. *)
Definition scan_consistency_type_to_string
    (consistency : query_scan_consistency) : string :=
  match consistency with
  | qsc_not_bounded => "not_bounded"
  | qsc_request_plus => "request_plus"
  end.

(** The profile modes of the native client ([couchbase::query_profile_mode]),
    whose enumerators the sources do not show: the enumeration, the canonical
    token of each level, the value-initialised level, and the text of the
    error for a string that is no token. *)
Class ProfileModeType (M : Type) : Type := {
  profile_modes : list M;
  profile_token : M -> string;
  profile_value_init : M;
  profile_error_text : string -> string
}.

(** Modelled from the spec: the body of [profile_mode_to_str], which
    [n1ql.hxx] only declares. "Given [a value], return its canonical string
    token"; the profile mode is "string-convertible like ConsistencyMode". *)
Definition profile_mode_to_str {M} `{ProfileModeType M} (profile_mode : M) : string :=
  profile_token profile_mode.

(** Modelled from the spec: the body of [str_to_profile_mode], which
    [n1ql.hxx] only declares. "Given a string token, return the matching
    [value], or fail"; an unrecognised token is a validation error. The
    declared return type is the enumeration itself, so the failure is
    reported the way [str_to_scan_consistency_type] does it. *)
Definition str_to_profile_mode {M} `{ProfileModeType M} (profile_mode : string) : Py M :=
  match List.find (fun m => Cxx.compare profile_mode (profile_token m) =? 0) profile_modes with
  | Some m => ret m
  | None =>
      PyErr_SetString PyExc_ValueError
        (c_str (profile_error_text profile_mode)) ;;;
      ret profile_value_init
  end.

(** An example catalogue of three verbosity levels. *)
Inductive query_profile_mode : Type :=
| qpm_off
| qpm_phases
| qpm_timings.

#[export] Instance query_profile_mode_type : ProfileModeType query_profile_mode :=
  {| profile_modes := [qpm_off; qpm_phases; qpm_timings];
     profile_token := fun m =>
       match m with
       | qpm_off => "off"
       | qpm_phases => "phases"
       | qpm_timings => "timings"
       end;
     profile_value_init := qpm_off;
     profile_error_text := fun s => Cxx.format "Invalid Profile Mode {}" [s] |}.

End N1ql.

(** ** The native client library, as far as the headers rely on it *)

Module Couchbase.

(** [couchbase::timeout_defaults]: the process-wide defaults, in milliseconds.
    The constant is defined by the native client, not by the binding. *)
Class timeout_defaults : Type := {
  management_timeout : Z
}.

(** An example value of the defaults: 75 seconds. *)
Definition example_defaults : timeout_defaults :=
  {| management_timeout := 75000 |}.

End Couchbase.

(** ** [management/analytics_management.hxx] *)

Module AnalyticsManagementOperations.

Inductive OperationType : Type :=
| UNKNOWN
| CREATE_DATAVERSE
| CREATE_DATASET
| CREATE_INDEX
| GET_ALL_DATASETS
| GET_ALL_INDEXES
| DROP_DATAVERSE
| DROP_DATASET
| DROP_INDEX
| GET_PENDING_MUTATIONS
| LINK_CREATE
| LINK_CONNECT
| GET_ALL_LINKS
| LINK_DISCONNECT
| LINK_REPLACE
| DROP_LINK.

(** No enumerator has an initialiser: the underlying values count from zero
    in declaration order. *)
Definition underlying (op : OperationType) : Z :=
  match op with
  | UNKNOWN => 0
  | CREATE_DATAVERSE => 1
  | CREATE_DATASET => 2
  | CREATE_INDEX => 3
  | GET_ALL_DATASETS => 4
  | GET_ALL_INDEXES => 5
  | DROP_DATAVERSE => 6
  | DROP_DATASET => 7
  | DROP_INDEX => 8
  | GET_PENDING_MUTATIONS => 9
  | LINK_CREATE => 10
  | LINK_CONNECT => 11
  | GET_ALL_LINKS => 12
  | LINK_DISCONNECT => 13
  | LINK_REPLACE => 14
  | DROP_LINK => 15
  end.

(** The enumerators in declaration order. *)
Definition enumerators : list OperationType :=
  [ UNKNOWN; CREATE_DATAVERSE; CREATE_DATASET; CREATE_INDEX; GET_ALL_DATASETS;
    GET_ALL_INDEXES; DROP_DATAVERSE; DROP_DATASET; DROP_INDEX;
    GET_PENDING_MUTATIONS; LINK_CREATE; LINK_CONNECT; GET_ALL_LINKS;
    LINK_DISCONNECT; LINK_REPLACE; DROP_LINK ].

(** The identifier of each enumerator, as spelled in the declaration. *)
Definition identifier (op : OperationType) : string :=
  match op with
  | UNKNOWN => "UNKNOWN"
  | CREATE_DATAVERSE => "CREATE_DATAVERSE"
  | CREATE_DATASET => "CREATE_DATASET"
  | CREATE_INDEX => "CREATE_INDEX"
  | GET_ALL_DATASETS => "GET_ALL_DATASETS"
  | GET_ALL_INDEXES => "GET_ALL_INDEXES"
  | DROP_DATAVERSE => "DROP_DATAVERSE"
  | DROP_DATASET => "DROP_DATASET"
  | DROP_INDEX => "DROP_INDEX"
  | GET_PENDING_MUTATIONS => "GET_PENDING_MUTATIONS"
  | LINK_CREATE => "LINK_CREATE"
  | LINK_CONNECT => "LINK_CONNECT"
  | GET_ALL_LINKS => "GET_ALL_LINKS"
  | LINK_DISCONNECT => "LINK_DISCONNECT"
  | LINK_REPLACE => "LINK_REPLACE"
  | DROP_LINK => "DROP_LINK"
  end.

(** Built-in [==] and [!=] on two values of the enumeration compare the
    underlying integers. *)
Definition enum_eq (x y : OperationType) : bool := underlying x =? underlying y.
Definition enum_ne (x y : OperationType) : bool := negb (underlying x =? underlying y).

(** The class itself: its only data member is the private [operation]. *)
Record t : Type := mk { operation : OperationType }.

(** [constexpr AnalyticsManagementOperations(OperationType op)] *)
Definition ctor (op : OperationType) : t := mk op.

(** [AnalyticsManagementOperations()], delegating to the constructor above. *)
Definition default_ctor : t := ctor UNKNOWN.

(** [operator OperationType() const] *)
Definition to_OperationType (self : t) : OperationType := operation self.

(** [operator==] and [operator!=] *)
Definition op_eq (self op : t) : bool := enum_eq (operation self) (operation op).
Definition op_ne (self op : t) : bool := enum_ne (operation self) (operation op).

(** The six relational operators of the language. *)
Inductive relational_operator : Type :=
| rel_eq | rel_ne | rel_lt | rel_le | rel_gt | rel_ge.

Definition same_operator (r r' : relational_operator) : bool :=
  match r, r' with
  | rel_eq, rel_eq | rel_ne, rel_ne | rel_lt, rel_lt
  | rel_le, rel_le | rel_gt, rel_gt | rel_ge, rel_ge => true
  | _, _ => false
  end.

(** The built-in relational operators on two values of the enumeration:
    comparisons of the underlying integers. *)
Definition builtin (r : relational_operator) (x y : OperationType) : bool :=
  match r with
  | rel_eq => enum_eq x y
  | rel_ne => enum_ne x y
  | rel_lt => underlying x <? underlying y
  | rel_le => underlying x <=? underlying y
  | rel_gt => underlying x >? underlying y
  | rel_ge => underlying x >=? underlying y
  end.

(** The operator functions that the class body defines: [operator==] and
    [operator!=], each taking the class itself. *)
Definition member_operators : list (relational_operator * (t -> t -> bool)) :=
  [ (rel_eq, op_eq); (rel_ne, op_ne) ].

Definition member_operator (r : relational_operator) : option (t -> t -> bool) :=
  match List.find (fun m => same_operator (fst m) r) member_operators with
  | Some m => Some (snd m)
  | None => None
  end.

(** The conversion functions that the class body declares:
    [operator OperationType() const], which is not explicit, and
    [explicit operator bool() = delete]. *)
Inductive conversion_target : Type :=
| to_enumeration
| to_bool.

Record conversion_function : Type := mk_conversion {
  conv_target : conversion_target;
  conv_explicit : bool;
  conv_deleted : bool
}.

Definition conversion_functions : list conversion_function :=
  [ mk_conversion to_enumeration false false;
    mk_conversion to_bool true true ].

Definition converts_implicitly_to_enumeration (c : conversion_function) : bool :=
  match conv_target c with
  | to_enumeration => negb (conv_explicit c)
  | to_bool => false
  end.

(** The expression [a r b] on two objects of the class, as overload
    resolution settles it; [None] when the expression is ill-formed. A
    member operator function takes the class itself: it is an exact match
    and is chosen. Where the class has none, the built-in operator on the
    enumeration is the candidate left; it needs an implicit conversion of
    both operands, which a conversion function to the enumeration provides
    unless it is explicit; a deleted one makes the expression ill-formed. *)
Definition relational (r : relational_operator) : option (t -> t -> bool) :=
  match member_operator r with
  | Some f => Some f
  | None =>
      match List.find converts_implicitly_to_enumeration conversion_functions with
      | Some c =>
          if conv_deleted c then None
          else Some (fun a b => builtin r (to_OperationType a) (to_OperationType b))
      | None => None
      end
  end.

(** [ALL_OPERATIONS]: fifteen adjacent string literals, which the compiler
    concatenates. *)
Definition ALL_OPERATIONS : string :=
  "CREATE_DATAVERSE " +:+
  "CREATE_DATASET " +:+
  "CREATE_INDEX " +:+
  "GET_ALL_DATASETS " +:+
  "GET_ALL_INDEXES " +:+
  "DROP_DATAVERSE " +:+
  "DROP_DATASET " +:+
  "DROP_INDEX " +:+
  "GET_PENDING_MUTATIONS " +:+
  "LINK_CREATE " +:+
  "LINK_CONNECT " +:+
  "GET_ALL_LINKS " +:+
  "LINK_DISCONNECT " +:+
  "LINK_REPLACE " +:+
  "DROP_LINK ".

End AnalyticsManagementOperations.

Module AnalyticsMgmt.
Import AnalyticsManagementOperations Couchbase.

(** [PyObject*] *)
Inductive PyObject_ptr : Type :=
| nullptr
| object_at (address : positive).

Record analytics_mgmt_options : Type := mk_options {
  op_args : PyObject_ptr;
  op_type : OperationType;
  timeout_ms : Z
}.

(** Aggregate initialisation [analytics_mgmt_options{ ... }]: the initialisers
    are positional, trailing ones may be left out. A member without an
    initialiser takes its default member initialiser; [op_args] has none and
    is then value-initialised. *)
Inductive initializer_list : Type :=
| init_empty
| init_1 (args : PyObject_ptr)
| init_2 (args : PyObject_ptr) (type : OperationType)
| init_3 (args : PyObject_ptr) (type : OperationType) (timeout : Z).

Definition aggregate_init `{timeout_defaults} (i : initializer_list)
    : analytics_mgmt_options :=
  match i with
  | init_empty => mk_options nullptr UNKNOWN management_timeout
  | init_1 args => mk_options args UNKNOWN management_timeout
  | init_2 args type => mk_options args type management_timeout
  | init_3 args type timeout => mk_options args type timeout
  end.

(** Default initialisation [analytics_mgmt_options o;]: [op_args] is left
    with whatever the storage held. *)
Definition default_init `{timeout_defaults} (indeterminate : PyObject_ptr)
    : analytics_mgmt_options :=
  mk_options indeterminate UNKNOWN management_timeout.

(** Whether an initialiser list supplies the timeout. *)
Definition supplies_timeout (i : initializer_list) : bool :=
  match i with
  | init_3 _ _ _ => true
  | _ => false
  end.

End AnalyticsMgmt.

(** ** The request dispatcher behind [handle_analytics_mgmt_op] *)

Module Dispatcher.
Import AnalyticsManagementOperations AnalyticsMgmt.

(** Values held by the loosely-typed argument bag. *)
Inductive PyValue : Type :=
| PyNone
| PyBool (b : bool)
| PyLong (n : Z)
| PyUnicode (s : string).

(** The connection handle, with its liveness check. *)
Record connection : Type := mk_connection { live : bool }.

(** The fields each kind's native request constructor needs. The table
    belongs to the native client's request definitions; of its content only
    this much is fixed: creating a dataset needs the dataset name. *)
Class request_catalogue : Type := {
  required_fields : OperationType -> list string;
  dataset_name_field : string;
  create_dataset_needs_name :
    In dataset_name_field (required_fields CREATE_DATASET)
}.

(** The error taxonomy. *)
Inductive Error : Type :=
| ValidationError
| TimeoutError
| NativeOperationError (code : Z) (message : string)
| LifecycleError.

(** One result-or-error on the single completion channel of the native
    client; the connection may also be closed while the request is in
    flight. *)
Inductive native_reply : Type :=
| reply_result (payload : string)
| reply_error (code : Z) (message : string)
| reply_closed.

(** What the native client does with a submitted request: it replies after
    [elapsed] milliseconds, or withholds the reply for ever. *)
Inductive native_behaviour : Type :=
| replies_after (elapsed : Z) (r : native_reply)
| hangs.

(** What an observer of one dispatch sees, in order. *)
Inductive event : Type :=
| ev_submit (kind : OperationType)
| ev_return
| ev_on_success (payload : string)
| ev_on_failure (e : Error).

(** Modelled from the spec: the state machine of one dispatched operation,
    [created -> submitted -> {completed, failed, timed_out}], which lives in
    the body of [handle_analytics_mgmt_op]; the header only declares that
    function. *)
Inductive op_state : Type :=
| created
| submitted
| completed
| failed
| timed_out.

Definition terminal (s : op_state) : bool :=
  match s with
  | completed | failed | timed_out => true
  | created | submitted => false
  end.

(** How many callbacks an operation in state [s] has received. *)
Definition resolved (s : op_state) : nat := if terminal s then 1%nat else 0%nat.

(** Modelled from the spec: the transitions of that state machine. No
    transition skips [submitted]; each transition into a terminal state is
    the invocation of a callback; the dispatcher hands control back to its
    caller while the operation is in flight. *)
Inductive step : op_state -> event -> op_state -> Prop :=
| step_submit kind : step created (ev_submit kind) submitted
| step_return : step submitted ev_return submitted
| step_complete payload : step submitted (ev_on_success payload) completed
| step_fail code message :
    step submitted (ev_on_failure (NativeOperationError code message)) failed
| step_closed : step submitted (ev_on_failure LifecycleError) failed
| step_timeout : step submitted (ev_on_failure TimeoutError) timed_out.

Inductive run : op_state -> list event -> op_state -> Prop :=
| run_done s : run s [] s
| run_step s e s' tr s'' : step s e s' -> run s' tr s'' -> run s (e :: tr) s''.

(** Modelled from the spec: how a submitted request resolves. A reply that
    arrives within the timeout is passed through, not reinterpreted; no
    reply within the timeout is a timeout error on the failure callback. *)
Definition resolution (timeout : Z) (b : native_behaviour) : event :=
  match b with
  | replies_after elapsed r =>
      if elapsed <=? timeout then
        match r with
        | reply_result payload => ev_on_success payload
        | reply_error code message => ev_on_failure (NativeOperationError code message)
        | reply_closed => ev_on_failure LifecycleError
        end
      else ev_on_failure TimeoutError
  | hangs => ev_on_failure TimeoutError
  end.

Definition has_required_fields `{request_catalogue}
    (kind : OperationType) (args : gmap string PyValue) : bool :=
  forallb (fun f => bool_decide (is_Some (args !! f))) (required_fields kind).

(** The preconditions on [(kind, args)]: the kind is not the sentinel and
    the bag holds every field the kind requires. *)
Definition valid `{request_catalogue}
    (kind : OperationType) (args : gmap string PyValue) : bool :=
  negb (enum_eq kind UNKNOWN) && has_required_fields kind args.

(** Modelled from the spec: [dispatch(connection, kind, args, timeout,
    on_success, on_failure)]. Validation and lifecycle errors are detected
    locally, before any native call, and reported through the failure callback
    before the dispatcher returns; otherwise the request is submitted, the
    dispatcher returns at once, and the operation resolves later. *)
Definition dispatch `{request_catalogue} (conn : connection)
    (kind : OperationType) (args : gmap string PyValue) (timeout : Z)
    (b : native_behaviour) : list event :=
  if enum_eq kind UNKNOWN then [ev_on_failure ValidationError; ev_return]
  else if negb (has_required_fields kind args) then
    [ev_on_failure ValidationError; ev_return]
  else if negb (live conn) then [ev_on_failure LifecycleError; ev_return]
  else [ev_submit kind; ev_return; resolution timeout b].

(** Modelled from the spec: [handle_analytics_mgmt_op(conn, options,
    pyObj_callback, pyObj_errback)], declared in the header without a body:
    the dispatcher applied to the members of [options]; [args] is the dict
    that [options->op_args] points to. *)
Definition handle_analytics_mgmt_op `{request_catalogue} (conn : connection)
    (args : gmap string PyValue) (options : analytics_mgmt_options)
    (b : native_behaviour) : list event :=
  dispatch conn (op_type options) args (timeout_ms options) b.

(** Observations on a trace. *)
Definition is_success (e : event) : bool :=
  match e with ev_on_success _ => true | _ => false end.

Definition is_failure (e : event) : bool :=
  match e with ev_on_failure _ => true | _ => false end.

Definition is_submit (e : event) : bool :=
  match e with ev_submit _ => true | _ => false end.

Definition successes (tr : list event) : nat := length (List.filter is_success tr).
Definition failures (tr : list event) : nat := length (List.filter is_failure tr).
Definition contacts_native (tr : list event) : bool := existsb is_submit tr.

(** The events up to the point where the dispatcher returns: what happens
    synchronously. *)
Fixpoint before_return (tr : list event) : list event :=
  match tr with
  | [] => []
  | ev_return :: _ => []
  | e :: tr' => e :: before_return tr'
  end.

(** An example request catalogue. *)
Definition example_required_fields (kind : OperationType) : list string :=
  match kind with
  | UNKNOWN => []
  | CREATE_DATAVERSE | DROP_DATAVERSE => ["dataverse_name"]
  | CREATE_DATASET => ["dataset_name"; "bucket_name"]
  | DROP_DATASET => ["dataset_name"]
  | CREATE_INDEX => ["dataset_name"; "index_name"; "fields"]
  | DROP_INDEX => ["dataset_name"; "index_name"]
  | GET_ALL_DATASETS | GET_ALL_INDEXES | GET_PENDING_MUTATIONS => []
  | LINK_CREATE | LINK_REPLACE => ["link"]
  | LINK_CONNECT | LINK_DISCONNECT | DROP_LINK => ["dataverse_name"; "link_name"]
  | GET_ALL_LINKS => []
  end.

Definition example_catalogue : request_catalogue :=
  {| required_fields := example_required_fields;
     dataset_name_field := "dataset_name";
     create_dataset_needs_name := or_introl eq_refl |}.

(** Example argument bags: one for [CREATE_DATASET] with both required
    fields, and one that lacks the dataset name. *)
Definition example_args : gmap string PyValue :=
  <["dataset_name" := PyUnicode "airports"]>
    (<["bucket_name" := PyUnicode "travel-sample"]> ∅).

Definition example_args_without_name : gmap string PyValue :=
  <["bucket_name" := PyUnicode "travel-sample"]> ∅.

End Dispatcher.

(** ** Vocabulary for statements about strings *)

Module Text.

(** Number of positions of [s] at which [p] occurs as a substring. *)
Fixpoint occurrences (p s : string) : nat :=
  match s with
  | EmptyString => if String.prefix p EmptyString then 1%nat else 0%nat
  | String _ rest =>
      ((if String.prefix p s then 1 else 0) + occurrences p rest)%nat
  end.

(** Concatenation of a list of strings. *)
Definition join (l : list string) : string := List.fold_right String.append "" l.

(** Whether a NUL byte occurs in [s]. *)
Fixpoint has_nul (s : string) : bool :=
  match s with
  | EmptyString => false
  | String c rest => Ascii.eqb c Ascii.zero || has_nul rest
  end.

(** The words of [s]: its maximal runs of characters other than the space,
    from left to right. [word] is the run read so far. *)
Fixpoint words_from (word s : string) : list string :=
  match s with
  | EmptyString => if String.eqb word "" then [] else [word]
  | String c rest =>
      if Ascii.eqb c " "%char then
        (if String.eqb word "" then [] else [word]) ++ words_from "" rest
      else words_from (word +:+ String c "") rest
  end.

Definition words (s : string) : list string := words_from "" s.

End Text.

(** * Properties *)

Section CxxFacts.

Lemma compare_zero_iff (a b : string) : Cxx.compare a b = 0 <-> a = b.
Proof.
  unfold Cxx.compare. split.
  - destruct (String.compare a b) eqn:E; try discriminate.
    intros _. now apply String.compare_eq_iff.
  - intros ->. replace (String.compare b b) with Eq; [reflexivity|].
    symmetry. induction b as [|c b IH]; simpl; [reflexivity|].
    replace (Ascii.compare c c) with Eq; [exact IH|].
    symmetry. unfold Ascii.compare. apply N.compare_refl.
Qed.

Lemma compare_eqb_true (a b : string) : (Cxx.compare a b =? 0) = true <-> a = b.
Proof. rewrite Z.eqb_eq. apply compare_zero_iff. Qed.

Lemma compare_eqb_false (a b : string) : (Cxx.compare a b =? 0) = false <-> a <> b.
Proof. rewrite Z.eqb_neq, compare_zero_iff. reflexivity. Qed.

End CxxFacts.

Section StringFacts.

Lemma append_empty_r (s : string) : s +:+ "" = s.
Proof.
  induction s as [|c s IH]; [reflexivity|].
  change (String c (s +:+ "") = String c s). now rewrite IH.
Qed.

Lemma format_scan_consistency (s : string) :
  Cxx.format "Invalid Scan Consistency type {}" [s]
  = "Invalid Scan Consistency type " +:+ s.
Proof.
  transitivity ("Invalid Scan Consistency type " +:+ (s +:+ ""));
    [reflexivity | now rewrite append_empty_r].
Qed.

(** A NUL byte is a character of its own: it never sits inside a code
    point, so cutting a valid string at its first NUL leaves a valid one. *)
Lemma utf8_run_c_str (q : Python.utf8_state) (s : string) :
  Python.utf8_run q s = true -> Python.utf8_run q (Python.c_str s) = true.
Proof.
  revert q. induction s as [|c s IH]; intros q; [trivial|].
  cbn [Python.c_str]. destruct (Ascii.eqb c Ascii.zero) eqn:Ec.
  - apply Ascii.eqb_eq in Ec. subst c.
    destruct q; [reflexivity | intros E; exact E ..].
  - cbn [Python.utf8_run].
    destruct (Python.utf8_step q (N_of_ascii c)); [apply IH | trivial].
Qed.

Lemma valid_utf8_c_str (s : string) :
  Python.valid_utf8 s = true -> Python.valid_utf8 (Python.c_str s) = true.
Proof. apply utf8_run_c_str. Qed.

Lemma c_str_scan_consistency_message (s : string) :
  Python.c_str ("Invalid Scan Consistency type " +:+ s)
  = "Invalid Scan Consistency type " +:+ Python.c_str s.
Proof. reflexivity. Qed.

Lemma valid_utf8_scan_consistency_message (s : string) :
  Python.valid_utf8 ("Invalid Scan Consistency type " +:+ s)
  = Python.valid_utf8 s.
Proof. reflexivity. Qed.

End StringFacts.

(** ** [n1ql.hxx]: the scan-consistency and profile-mode helpers *)

Section N1qlProperties.
Import Python N1ql.

(** A recognised token leaves the error indicator alone. *)
Lemma str_to_scan_consistency_type_known {T} `{ScanConsistencyType T}
    (consistency : string) (st : indicator) :
  consistency = "not_bounded" \/ consistency = "request_plus" ->
  pending_after (str_to_scan_consistency_type consistency) st = st.
Proof.
  unfold pending_after, str_to_scan_consistency_type.
  intros [-> | ->]; reflexivity.
Qed.

(** C2. For every string other than "not_bounded" and "request_plus",
    [str_to_scan_consistency_type] leaves an exception pending, whatever was
    pending before; when the string, up to its first NUL byte, is valid
    UTF-8, that exception is a [ValueError] whose message names the
    offending token. The value handed back next to the exception is the
    value-initialised enumerator: the default is never returned silently. *)
Theorem str_to_scan_consistency_type_rejects {T} `{ScanConsistencyType T}
    (consistency : string) (st : indicator) :
  consistency <> "not_bounded" ->
  consistency <> "request_plus" ->
  is_Some (pending_after (str_to_scan_consistency_type consistency) st)
  /\ (valid_utf8 (c_str consistency) = true ->
      pending_after (str_to_scan_consistency_type consistency) st
      = Some (mkPyErr PyExc_ValueError
                (c_str ("Invalid Scan Consistency type " +:+ consistency))))
  /\ value_of (str_to_scan_consistency_type consistency) st = value_init.
Proof.
  intros Hnb Hrp.
  unfold pending_after, value_of, str_to_scan_consistency_type.
  apply compare_eqb_false in Hnb, Hrp. rewrite Hnb, Hrp.
  rewrite format_scan_consistency.
  unfold bind, PyErr_SetString, ret. cbn [fst snd].
  split; [eauto|]. split; [|reflexivity].
  rewrite c_str_scan_consistency_message, valid_utf8_scan_consistency_message.
  now intros ->.
Qed.

(** What a caller that checks the indicator after the call observes. *)
Lemma str_to_scan_consistency_type_error_observable {T} `{ScanConsistencyType T}
    (consistency : string) (st : indicator) :
  st = None ->
  value_of (str_to_scan_consistency_type consistency ;;; PyErr_Occurred) st
  = negb (String.eqb consistency "not_bounded"
          || String.eqb consistency "request_plus").
Proof.
  intros ->. unfold value_of, bind, str_to_scan_consistency_type.
  destruct (String.eqb_spec consistency "not_bounded") as [-> | Hnb];
    [reflexivity|].
  destruct (String.eqb_spec consistency "request_plus") as [-> | Hrp];
    [reflexivity|].
  apply compare_eqb_false in Hnb, Hrp. rewrite Hnb, Hrp. reflexivity.
Qed.

Lemma str_to_scan_consistency_type_rejects_witness :
  is_Some
    (pending_after
       (str_to_scan_consistency_type (T := query_scan_consistency) "bogus") None)
  /\ (valid_utf8 (c_str "bogus") = true ->
      pending_after
        (str_to_scan_consistency_type (T := query_scan_consistency) "bogus") None
      = Some (mkPyErr PyExc_ValueError "Invalid Scan Consistency type bogus"))
  /\ value_of
       (str_to_scan_consistency_type (T := query_scan_consistency) "bogus") None
     = qsc_not_bounded.
Proof.
  refine (str_to_scan_consistency_type_rejects
            (T := query_scan_consistency) "bogus" None _ _);
    discriminate.
Defined.

(** At "bogus" the condition on the encoding holds, and the message is the
    one the source formats. *)
Lemma str_to_scan_consistency_type_bogus :
  valid_utf8 (c_str "bogus") = true
  /\ pending_after
       (str_to_scan_consistency_type (T := query_scan_consistency) "bogus") None
     = Some (mkPyErr PyExc_ValueError "Invalid Scan Consistency type bogus").
Proof. split; reflexivity. Qed.

(** At the single byte 0xFF the message is not valid UTF-8: an exception is
    pending, but it carries no decoded message. *)
Lemma str_to_scan_consistency_type_not_utf8 :
  pending_after
    (str_to_scan_consistency_type (T := query_scan_consistency)
       (String "255"%char "")) None
  = Some (undecodable PyExc_ValueError
            ("Invalid Scan Consistency type " +:+ String "255"%char "")).
Proof. reflexivity. Qed.

(** C3. For each of the two tokens "not_bounded" and "request_plus", parsing
    it and converting the parsed mode back gives the token again, and no
    error is raised on the way. *)
Theorem scan_consistency_round_trip (t : string) (st : indicator) :
  In t ["not_bounded"; "request_plus"] ->
  scan_consistency_type_to_string
    (value_of (str_to_scan_consistency_type t) st) = t
  /\ pending_after
       (str_to_scan_consistency_type (T := query_scan_consistency) t) st = st.
Proof.
  intros [<- | [<- | []]]; split; reflexivity.
Qed.

Lemma scan_consistency_round_trip_witness :
  scan_consistency_type_to_string
    (value_of (str_to_scan_consistency_type "request_plus") None)
  = "request_plus"
  /\ pending_after
       (str_to_scan_consistency_type (T := query_scan_consistency)
          "request_plus") None = None.
Proof.
  apply (scan_consistency_round_trip "request_plus" None).
  simpl. right. left. reflexivity.
Defined.

(** The parser of profile modes answers with a level whose canonical token
    is the string it was given, whenever some level has that token. *)
Lemma find_profile_mode {M} `{ProfileModeType M} (t : string) (l : list M) :
  In t (List.map profile_token l) ->
  exists m,
    List.find (fun m => Cxx.compare t (profile_token m) =? 0) l = Some m
    /\ profile_token m = t.
Proof.
  induction l as [|m l IH]; simpl; [intros [] |].
  destruct (Cxx.compare t (profile_token m) =? 0) eqn:E.
  - intros _. exists m. split; [reflexivity|].
    symmetry. now apply compare_eqb_true.
  - intros [Heq | Hin].
    + apply compare_eqb_false in E. congruence.
    + exact (IH Hin).
Qed.

(** C8. For every token of a defined profile mode, parsing the token and
    converting the parsed mode back gives the token again, and no error is
    raised on the way. *)
Theorem profile_mode_round_trip {M} `{ProfileModeType M}
    (t : string) (st : indicator) :
  In t (List.map profile_token profile_modes) ->
  profile_mode_to_str (value_of (str_to_profile_mode t) st) = t
  /\ pending_after (str_to_profile_mode t) st = st.
Proof.
  intros Hin. destruct (find_profile_mode t profile_modes Hin) as (m & Hfind & Htok).
  unfold profile_mode_to_str, value_of, pending_after, str_to_profile_mode.
  rewrite Hfind. simpl. split; [exact Htok | reflexivity].
Qed.

Lemma profile_mode_round_trip_witness :
  profile_mode_to_str
    (value_of (str_to_profile_mode (M := query_profile_mode) "timings") None)
  = "timings"
  /\ pending_after
       (str_to_profile_mode (M := query_profile_mode) "timings") None = None.
Proof.
  apply (profile_mode_round_trip (M := query_profile_mode) "timings" None).
  simpl. right. right. left. reflexivity.
Defined.

End N1qlProperties.

(** ** [analytics_management.hxx]: the operation catalogue *)

Section CatalogueProperties.
Import AnalyticsManagementOperations.

(** The enumerators are listed in declaration order: the one at position [i]
    has underlying value [i]. *)
Lemma enumerators_in_declaration_order :
  List.map underlying enumerators = List.map Z.of_nat (seq 0 16).
Proof. reflexivity. Qed.

Lemma enumerators_complete (op : OperationType) : In op enumerators.
Proof. destruct op; simpl; tauto. Qed.

(** Distinct enumerators have distinct underlying values. *)
Lemma underlying_inj (x y : OperationType) : underlying x = underlying y -> x = y.
Proof. destruct x, y; simpl; intros E; try reflexivity; discriminate E. Qed.

Lemma enum_eq_true (x y : OperationType) : enum_eq x y = true <-> x = y.
Proof.
  unfold enum_eq. rewrite Z.eqb_eq. split.
  - apply underlying_inj.
  - now intros ->.
Qed.

(** C9, as the code has it. Two [AnalyticsManagementOperations] values
    compare equal with [==] exactly when they hold the same [OperationType],
    and [!=] is the negation of [==]. These two are the only relational
    operators the class defines as members; but every one of the six
    relational operators is well-formed on two objects of the class, the
    ordering ones through the implicit conversion to [OperationType], and
    each gives the built-in comparison of the two underlying values, that
    is, of the positions in the declaration. *)
Theorem operations_compare_by_operation_type (a b : t) :
  (op_eq a b = true <-> operation a = operation b)
  /\ op_ne a b = negb (op_eq a b)
  /\ (forall r, is_Some (member_operator r) <-> r = rel_eq \/ r = rel_ne)
  /\ (forall r, exists f,
        relational r = Some f
        /\ f a b = builtin r (operation a) (operation b)).
Proof.
  split; [apply enum_eq_true|]. split; [reflexivity|]. split.
  - intros r. split.
    + destruct r; cbn; intros [f Hf]; try discriminate Hf; tauto.
    + intros [-> | ->]; cbn; eauto.
  - intros r. destruct r; cbn; eexists; split; reflexivity.
Qed.

(** The claim C9 as it was stated does not hold: [<] is defined on two
    objects of the class, and orders them by declaration. *)
Lemma ordering_is_defined_on_operations :
  (exists f,
     relational rel_lt = Some f
     /\ f (ctor CREATE_DATASET) (ctor DROP_LINK) = true
     /\ f (ctor DROP_LINK) (ctor CREATE_DATASET) = false)
  /\ ~ (forall r, is_Some (relational r) -> r = rel_eq \/ r = rel_ne).
Proof.
  split.
  - eexists. split; [reflexivity|]. split; reflexivity.
  - intros Honly. destruct (Honly rel_lt) as [E | E]; [cbn; eauto | discriminate E ..].
Qed.

(** C10. [ALL_OPERATIONS] is the identifiers of the fifteen kinds other than
    the sentinel, in declaration order, each followed by one space; each of
    those identifiers occurs in it exactly once, and the sentinel's does not
    occur. *)
Theorem ALL_OPERATIONS_lists_each_kind_once :
  ALL_OPERATIONS
  = Text.join (List.map (fun op => identifier op +:+ " ")
                 (List.filter (fun op => negb (enum_eq op UNKNOWN)) enumerators))
  /\ length (List.filter (fun op => negb (enum_eq op UNKNOWN)) enumerators) = 15%nat
  /\ (forall op, Text.occurrences " " (identifier op) = 0%nat)
  /\ (forall op, Text.occurrences (identifier op) ALL_OPERATIONS
                 = if enum_eq op UNKNOWN then 0%nat else 1%nat).
Proof.
  split; [vm_compute; reflexivity|]. split; [reflexivity|].
  split; intros op; destruct op; vm_compute; reflexivity.
Qed.

End CatalogueProperties.

(** ** [analytics_management.hxx]: the options of one operation *)

Section OptionsProperties.
Import AnalyticsManagementOperations AnalyticsMgmt Couchbase.
Context `{timeout_defaults}.

(** C5. A default-constructed [AnalyticsManagementOperations] compares equal
    to [UNKNOWN] and converts to it, and the [op_type] of
    [analytics_mgmt_options] is [UNKNOWN] whenever no initialiser is given
    for it. *)
Theorem default_operation_is_UNKNOWN (p : PyObject_ptr) :
  op_eq default_ctor (ctor UNKNOWN) = true
  /\ to_OperationType default_ctor = UNKNOWN
  /\ op_type (default_init p) = UNKNOWN
  /\ op_type (aggregate_init init_empty) = UNKNOWN
  /\ op_type (aggregate_init (init_1 p)) = UNKNOWN.
Proof. repeat split. Qed.

(** C7. When no timeout is supplied, [timeout_ms] is the native client's
    [timeout_defaults::management_timeout]. *)
Theorem timeout_defaults_to_management_timeout (i : initializer_list) (p : PyObject_ptr) :
  supplies_timeout i = false ->
  timeout_ms (aggregate_init i) = management_timeout
  /\ timeout_ms (default_init p) = management_timeout.
Proof.
  intros Hno. split; [|reflexivity].
  destruct i; simpl in *; [reflexivity .. | discriminate Hno].
Qed.

(** A supplied timeout is kept as it is. *)
Lemma supplied_timeout_kept (args : PyObject_ptr) (type : OperationType) (timeout : Z) :
  timeout_ms (aggregate_init (init_3 args type timeout)) = timeout.
Proof. reflexivity. Qed.

End OptionsProperties.

Lemma timeout_defaults_to_management_timeout_witness :
  AnalyticsMgmt.timeout_ms
    (AnalyticsMgmt.aggregate_init (H := Couchbase.example_defaults)
       (AnalyticsMgmt.init_2 (AnalyticsMgmt.object_at 1)
          AnalyticsManagementOperations.DROP_INDEX)) = 75000
  /\ AnalyticsMgmt.timeout_ms
       (AnalyticsMgmt.default_init (H := Couchbase.example_defaults)
          AnalyticsMgmt.nullptr) = 75000.
Proof.
  refine (timeout_defaults_to_management_timeout
            (H := Couchbase.example_defaults)
            (AnalyticsMgmt.init_2 (AnalyticsMgmt.object_at 1)
               AnalyticsManagementOperations.DROP_INDEX)
            AnalyticsMgmt.nullptr _).
  reflexivity.
Defined.

(** ** The request dispatcher *)

Section DispatcherProperties.
Import AnalyticsManagementOperations AnalyticsMgmt Dispatcher.
Context `{request_catalogue}.

(** Every transition that invokes a callback enters a terminal state, and
    no other transition does. *)
Lemma step_callbacks (s : op_state) (e : event) (s' : op_state) :
  step s e s' ->
  (successes [e] + failures [e] + resolved s = resolved s')%nat.
Proof. intros Hstep. destruct Hstep; reflexivity. Qed.

Lemma successes_cons (e : event) (tr : list event) :
  successes (e :: tr) = (successes [e] + successes tr)%nat.
Proof. unfold successes. simpl. destruct (is_success e); reflexivity. Qed.

Lemma failures_cons (e : event) (tr : list event) :
  failures (e :: tr) = (failures [e] + failures tr)%nat.
Proof. unfold failures. simpl. destruct (is_failure e); reflexivity. Qed.

(** Along any run of the state machine the callbacks invoked so far number
    one if the operation is resolved and none otherwise. *)
Lemma run_callbacks (s : op_state) (tr : list event) (s' : op_state) :
  run s tr s' ->
  (successes tr + failures tr + resolved s = resolved s')%nat.
Proof.
  induction 1 as [s | s e s1 tr s2 Hstep _ IH]; [reflexivity|].
  rewrite successes_cons, failures_cons.
  apply step_callbacks in Hstep. lia.
Qed.

(** A resolved operation takes no further step. *)
Lemma terminal_stuck (s : op_state) (e : event) (s' : op_state) :
  terminal s = true -> ~ step s e s'.
Proof. intros Hterm Hstep. destruct Hstep; discriminate Hterm. Qed.

Lemma resolution_step (timeout : Z) (b : native_behaviour) :
  exists s, terminal s = true /\ step submitted (resolution timeout b) s.
Proof.
  unfold resolution. destruct b as [elapsed r|].
  - destruct (elapsed <=? timeout).
    + destruct r.
      * exists completed. split; [reflexivity | constructor].
      * exists failed. split; [reflexivity | constructor].
      * exists failed. split; [reflexivity | constructor].
    + exists timed_out. split; [reflexivity | constructor].
  - exists timed_out. split; [reflexivity | constructor].
Qed.

(** A valid request on a live connection goes through the whole life cycle:
    its trace is a run from [created], through [submitted], to a terminal
    state. *)
Lemma dispatch_run (conn : connection) (kind : OperationType)
    (args : gmap string PyValue) (timeout : Z) (b : native_behaviour) :
  valid kind args = true ->
  live conn = true ->
  exists s, terminal s = true /\ run created (dispatch conn kind args timeout b) s.
Proof.
  unfold valid, dispatch. intros Hvalid Hlive.
  apply andb_true_iff in Hvalid as [Hkind Hfields].
  apply negb_true_iff in Hkind. rewrite Hkind, Hfields, Hlive. simpl.
  destruct (resolution_step timeout b) as (s & Hterm & Hstep).
  exists s. split; [exact Hterm|].
  eapply run_step; [apply step_submit|].
  eapply run_step; [apply step_return|].
  eapply run_step; [exact Hstep | apply run_done].
Qed.

(** C1. For every valid pair of a kind and an argument bag, whatever the
    state of the connection and whatever the native client does (reply with
    a result, reply with an error, withhold the reply past the timeout,
    close the connection in flight), one dispatch invokes exactly one of the
    two callbacks, exactly once. *)
Theorem handle_analytics_mgmt_op_resolves_exactly_once
    (conn : connection) (args : gmap string PyValue)
    (options : analytics_mgmt_options) (b : native_behaviour) :
  valid (op_type options) args = true ->
  (successes (handle_analytics_mgmt_op conn args options b) = 1%nat
   /\ failures (handle_analytics_mgmt_op conn args options b) = 0%nat)
  \/ (successes (handle_analytics_mgmt_op conn args options b) = 0%nat
      /\ failures (handle_analytics_mgmt_op conn args options b) = 1%nat).
Proof.
  intros Hvalid.
  assert (Hone : (successes (handle_analytics_mgmt_op conn args options b)
                  + failures (handle_analytics_mgmt_op conn args options b)
                  = 1)%nat).
  { unfold handle_analytics_mgmt_op.
    destruct (live conn) eqn:Hlive.
    - destruct (dispatch_run conn _ args (timeout_ms options) b Hvalid Hlive)
        as (s & Hterm & Hrun).
      apply run_callbacks in Hrun. unfold resolved in Hrun.
      rewrite Hterm in Hrun. simpl in Hrun. lia.
    - unfold valid in Hvalid. apply andb_true_iff in Hvalid as [Hkind Hfields].
      apply negb_true_iff in Hkind.
      unfold dispatch. rewrite Hkind, Hfields, Hlive. reflexivity. }
  lia.
Qed.

(** C4. Dispatching the [UNKNOWN] sentinel gives a validation error on the
    failure callback before the dispatcher returns, and nothing is submitted
    to the native client, whatever the connection, the arguments and the
    native client. *)
Theorem dispatching_UNKNOWN_is_a_validation_error
    (conn : connection) (args : gmap string PyValue)
    (options : analytics_mgmt_options) (b : native_behaviour) :
  op_type options = UNKNOWN ->
  handle_analytics_mgmt_op conn args options b
  = [ev_on_failure ValidationError; ev_return]
  /\ contacts_native (handle_analytics_mgmt_op conn args options b) = false.
Proof.
  intros Hkind. unfold handle_analytics_mgmt_op, dispatch.
  rewrite Hkind. split; reflexivity.
Qed.

Lemma missing_field_rejected (kind : OperationType)
    (args : gmap string PyValue) (field : string) :
  In field (required_fields kind) ->
  args !! field = None ->
  has_required_fields kind args = false.
Proof.
  intros Hin Hmissing. unfold has_required_fields.
  destruct (forallb _ _) eqn:Hall; [|reflexivity].
  rewrite forallb_forall in Hall. specialize (Hall field Hin).
  apply bool_decide_eq_true in Hall. rewrite Hmissing in Hall.
  now destruct Hall.
Qed.

(** C6. Dispatching [CREATE_DATASET] with a bag that lacks the dataset-name
    field gives a validation error on the failure callback before the
    dispatcher returns; nothing is submitted to the native client, and the
    dispatcher does return. *)
Theorem create_dataset_without_name_is_a_validation_error
    (conn : connection) (args : gmap string PyValue)
    (options : analytics_mgmt_options) (b : native_behaviour) :
  op_type options = CREATE_DATASET ->
  args !! dataset_name_field = None ->
  handle_analytics_mgmt_op conn args options b
  = [ev_on_failure ValidationError; ev_return]
  /\ before_return (handle_analytics_mgmt_op conn args options b)
     = [ev_on_failure ValidationError]
  /\ contacts_native (handle_analytics_mgmt_op conn args options b) = false.
Proof.
  intros Hkind Hmissing. unfold handle_analytics_mgmt_op, dispatch.
  rewrite Hkind.
  rewrite (missing_field_rejected CREATE_DATASET args dataset_name_field
             create_dataset_needs_name Hmissing).
  repeat split.
Qed.

End DispatcherProperties.

Lemma handle_analytics_mgmt_op_resolves_exactly_once_witness :
  (Dispatcher.successes
     (Dispatcher.handle_analytics_mgmt_op (H := Dispatcher.example_catalogue)
        (Dispatcher.mk_connection true) Dispatcher.example_args
        (AnalyticsMgmt.mk_options (AnalyticsMgmt.object_at 1)
           AnalyticsManagementOperations.CREATE_DATASET 75000)
        Dispatcher.hangs) = 1%nat
   /\ Dispatcher.failures
        (Dispatcher.handle_analytics_mgmt_op (H := Dispatcher.example_catalogue)
           (Dispatcher.mk_connection true) Dispatcher.example_args
           (AnalyticsMgmt.mk_options (AnalyticsMgmt.object_at 1)
              AnalyticsManagementOperations.CREATE_DATASET 75000)
           Dispatcher.hangs) = 0%nat)
  \/ (Dispatcher.successes
        (Dispatcher.handle_analytics_mgmt_op (H := Dispatcher.example_catalogue)
           (Dispatcher.mk_connection true) Dispatcher.example_args
           (AnalyticsMgmt.mk_options (AnalyticsMgmt.object_at 1)
              AnalyticsManagementOperations.CREATE_DATASET 75000)
           Dispatcher.hangs) = 0%nat
      /\ Dispatcher.failures
           (Dispatcher.handle_analytics_mgmt_op (H := Dispatcher.example_catalogue)
              (Dispatcher.mk_connection true) Dispatcher.example_args
              (AnalyticsMgmt.mk_options (AnalyticsMgmt.object_at 1)
                 AnalyticsManagementOperations.CREATE_DATASET 75000)
              Dispatcher.hangs) = 1%nat).
Proof.
  refine (handle_analytics_mgmt_op_resolves_exactly_once
            (H := Dispatcher.example_catalogue)
            (Dispatcher.mk_connection true) Dispatcher.example_args
            (AnalyticsMgmt.mk_options (AnalyticsMgmt.object_at 1)
               AnalyticsManagementOperations.CREATE_DATASET 75000)
            Dispatcher.hangs _).
  vm_compute. reflexivity.
Defined.

Lemma dispatching_UNKNOWN_is_a_validation_error_witness :
  Dispatcher.handle_analytics_mgmt_op (H := Dispatcher.example_catalogue)
    (Dispatcher.mk_connection true) Dispatcher.example_args
    (AnalyticsMgmt.default_init (H := Couchbase.example_defaults)
       (AnalyticsMgmt.object_at 1))
    (Dispatcher.replies_after 10 (Dispatcher.reply_result "ok"))
  = [Dispatcher.ev_on_failure Dispatcher.ValidationError; Dispatcher.ev_return]
  /\ Dispatcher.contacts_native
       (Dispatcher.handle_analytics_mgmt_op (H := Dispatcher.example_catalogue)
          (Dispatcher.mk_connection true) Dispatcher.example_args
          (AnalyticsMgmt.default_init (H := Couchbase.example_defaults)
             (AnalyticsMgmt.object_at 1))
          (Dispatcher.replies_after 10 (Dispatcher.reply_result "ok")))
     = false.
Proof.
  refine (dispatching_UNKNOWN_is_a_validation_error
            (H := Dispatcher.example_catalogue)
            (Dispatcher.mk_connection true) Dispatcher.example_args
            (AnalyticsMgmt.default_init (H := Couchbase.example_defaults)
               (AnalyticsMgmt.object_at 1))
            (Dispatcher.replies_after 10 (Dispatcher.reply_result "ok")) _).
  reflexivity.
Defined.

Lemma create_dataset_without_name_is_a_validation_error_witness :
  Dispatcher.handle_analytics_mgmt_op (H := Dispatcher.example_catalogue)
    (Dispatcher.mk_connection true) Dispatcher.example_args_without_name
    (AnalyticsMgmt.mk_options (AnalyticsMgmt.object_at 1)
       AnalyticsManagementOperations.CREATE_DATASET 75000)
    (Dispatcher.replies_after 10 (Dispatcher.reply_result "ok"))
  = [Dispatcher.ev_on_failure Dispatcher.ValidationError; Dispatcher.ev_return]
  /\ Dispatcher.before_return
       (Dispatcher.handle_analytics_mgmt_op (H := Dispatcher.example_catalogue)
          (Dispatcher.mk_connection true) Dispatcher.example_args_without_name
          (AnalyticsMgmt.mk_options (AnalyticsMgmt.object_at 1)
             AnalyticsManagementOperations.CREATE_DATASET 75000)
          (Dispatcher.replies_after 10 (Dispatcher.reply_result "ok")))
     = [Dispatcher.ev_on_failure Dispatcher.ValidationError]
  /\ Dispatcher.contacts_native
       (Dispatcher.handle_analytics_mgmt_op (H := Dispatcher.example_catalogue)
          (Dispatcher.mk_connection true) Dispatcher.example_args_without_name
          (AnalyticsMgmt.mk_options (AnalyticsMgmt.object_at 1)
             AnalyticsManagementOperations.CREATE_DATASET 75000)
          (Dispatcher.replies_after 10 (Dispatcher.reply_result "ok")))
     = false.
Proof.
  refine (create_dataset_without_name_is_a_validation_error
            (H := Dispatcher.example_catalogue)
            (Dispatcher.mk_connection true) Dispatcher.example_args_without_name
            (AnalyticsMgmt.mk_options (AnalyticsMgmt.object_at 1)
               AnalyticsManagementOperations.CREATE_DATASET 75000)
            (Dispatcher.replies_after 10 (Dispatcher.reply_result "ok")) _ _).
  - reflexivity.
  - vm_compute. reflexivity.
Defined.

(** * Further properties of the code *)

(** ** [str_to_scan_consistency_type] *)

Section ScanConsistencyParser.
Import Python N1ql.
Context {T : Type} `{ScanConsistencyType T}.

Lemma c_str_no_nul (s : string) : Text.has_nul (c_str s) = false.
Proof.
  induction s as [|c s IH]; simpl; [reflexivity|].
  destruct (Ascii.eqb c Ascii.zero) eqn:E; simpl; [reflexivity|].
  now rewrite E.
Qed.

Lemma c_str_id (s : string) : Text.has_nul s = false -> c_str s = s.
Proof.
  induction s as [|c s IH]; simpl; [reflexivity|].
  destruct (Ascii.eqb c Ascii.zero); simpl; [discriminate|].
  intros Hs. now rewrite IH.
Qed.

Lemma c_str_prefix (s : string) : String.prefix (c_str s) s = true.
Proof.
  induction s as [|c s IH]; simpl; [reflexivity|].
  destruct (Ascii.eqb c Ascii.zero); simpl; [reflexivity|].
  destruct (ascii_dec c c) as [_|Hne]; [exact IH | now destruct Hne].
Qed.

Lemma scan_consistency_cases (consistency : string) (st : indicator) :
  (consistency = "not_bounded"
   /\ str_to_scan_consistency_type consistency st = (not_bounded, st))
  \/ (consistency = "request_plus"
      /\ str_to_scan_consistency_type consistency st = (request_plus, st))
  \/ (consistency <> "not_bounded" /\ consistency <> "request_plus"
      /\ str_to_scan_consistency_type consistency st
         = (value_init,
            Some (if valid_utf8 (c_str consistency)
                  then mkPyErr PyExc_ValueError
                         ("Invalid Scan Consistency type " +:+ c_str consistency)
                  else undecodable PyExc_ValueError
                         ("Invalid Scan Consistency type " +:+ c_str consistency)))).
Proof.
  unfold str_to_scan_consistency_type.
  destruct (Cxx.compare consistency "not_bounded" =? 0) eqn:Enb.
  - apply compare_eqb_true in Enb. left. split; [exact Enb | reflexivity].
  - destruct (Cxx.compare consistency "request_plus" =? 0) eqn:Erp.
    + apply compare_eqb_true in Erp. right. left. split; [exact Erp | reflexivity].
    + apply compare_eqb_false in Enb, Erp. right. right.
      split; [exact Enb|]. split; [exact Erp|].
      unfold bind, PyErr_SetString, ret.
      rewrite format_scan_consistency, c_str_scan_consistency_message.
      now rewrite valid_utf8_scan_consistency_message.
Qed.

(** X1. After [str_to_scan_consistency_type] an exception is pending exactly
    when one was pending before the call or the string is neither
    "not_bounded" nor "request_plus": the function raises for every
    unrecognised string, for no recognised one, and never clears an earlier
    exception. *)
Theorem str_to_scan_consistency_type_pending_iff
    (consistency : string) (st : indicator) :
  is_Some (pending_after (str_to_scan_consistency_type consistency) st)
  <-> is_Some st
      \/ (consistency <> "not_bounded" /\ consistency <> "request_plus").
Proof.
  unfold pending_after.
  destruct (scan_consistency_cases consistency st)
    as [[Hs E] | [[Hs E] | (Hnb & Hrp & E)]]; rewrite E; simpl.
  - split; [now left | intros [Hst | [Hnb _]]; [exact Hst | contradiction]].
  - split; [now left | intros [Hst | [_ Hrp]]; [exact Hst | contradiction]].
  - split; [intros _; right; now split | intros _; eauto].
Qed.

(** X2. When value-initialisation of the enumeration gives [not_bounded],
    every string other than "request_plus" makes
    [str_to_scan_consistency_type] return [not_bounded]: the returned value
    does not tell the token "not_bounded" from an unrecognised one. *)
Theorem str_to_scan_consistency_type_falls_back_to_not_bounded
    (consistency : string) (st : indicator) :
  value_init = not_bounded ->
  consistency <> "request_plus" ->
  value_of (str_to_scan_consistency_type consistency) st = not_bounded.
Proof.
  intros Hinit Hne. unfold value_of.
  destruct (scan_consistency_cases consistency st)
    as [[Hs E] | [[Hs E] | (Hnb & Hrp & E)]]; rewrite E; simpl.
  - reflexivity.
  - contradiction.
  - exact Hinit.
Qed.

(** X3. When [request_plus] differs from [not_bounded] and from the
    value-initialised enumerator, [str_to_scan_consistency_type] returns
    [request_plus] for the string "request_plus" and for no other string. *)
Theorem str_to_scan_consistency_type_request_plus_iff
    (consistency : string) (st : indicator) :
  request_plus <> not_bounded ->
  request_plus <> value_init ->
  value_of (str_to_scan_consistency_type consistency) st = request_plus
  <-> consistency = "request_plus".
Proof.
  intros Hnb Hinit. unfold value_of.
  destruct (scan_consistency_cases consistency st)
    as [[Hs E] | [[Hs E] | (Hnb' & Hrp & E)]]; rewrite E; simpl.
  - split; [intros Heq; now destruct Hnb | intros ->; discriminate Hs].
  - split; [intros _; exact Hs | reflexivity].
  - split; [intros Heq; now destruct Hinit | intros Heq; contradiction].
Qed.

(** X4. For an unrecognised string whose part before the first NUL byte is
    valid UTF-8, the pending exception is a [ValueError] whose message is
    "Invalid Scan Consistency type " followed by that part of the string:
    the message stops at the first NUL byte, and holds the whole string when
    the string holds no NUL. *)
Theorem str_to_scan_consistency_type_message
    (consistency : string) (st : indicator) :
  consistency <> "not_bounded" ->
  consistency <> "request_plus" ->
  valid_utf8 (c_str consistency) = true ->
  pending_after (str_to_scan_consistency_type consistency) st
  = Some (mkPyErr PyExc_ValueError
            ("Invalid Scan Consistency type " +:+ c_str consistency))
  /\ String.prefix (c_str consistency) consistency = true
  /\ Text.has_nul (c_str consistency) = false
  /\ (Text.has_nul consistency = false -> c_str consistency = consistency).
Proof.
  intros Hnb Hrp Hutf8. split; [|split; [apply c_str_prefix|split;
    [apply c_str_no_nul | apply c_str_id]]].
  unfold pending_after.
  destruct (scan_consistency_cases consistency st)
    as [[Hs _] | [[Hs _] | (_ & _ & E)]]; [contradiction | contradiction |].
  rewrite E, Hutf8. reflexivity.
Qed.

End ScanConsistencyParser.

Lemma str_to_scan_consistency_type_falls_back_to_not_bounded_witness :
  Python.value_of
    (N1ql.str_to_scan_consistency_type (H := N1ql.query_scan_consistency_type)
       "Request_Plus") None
  = N1ql.qsc_not_bounded.
Proof.
  refine (str_to_scan_consistency_type_falls_back_to_not_bounded
            (H := N1ql.query_scan_consistency_type) "Request_Plus" None _ _).
  - reflexivity.
  - discriminate.
Defined.

Lemma str_to_scan_consistency_type_request_plus_iff_witness :
  Python.value_of
    (N1ql.str_to_scan_consistency_type (H := N1ql.query_scan_consistency_type)
       "request_plus ") (Some (Python.mkPyErr Python.PyExc_ValueError "earlier"))
  = N1ql.qsc_request_plus
  <-> "request_plus " = "request_plus".
Proof.
  refine (str_to_scan_consistency_type_request_plus_iff
            (H := N1ql.query_scan_consistency_type) "request_plus "
            (Some (Python.mkPyErr Python.PyExc_ValueError "earlier")) _ _);
    discriminate.
Defined.

Lemma str_to_scan_consistency_type_message_witness :
  Python.pending_after
    (N1ql.str_to_scan_consistency_type (H := N1ql.query_scan_consistency_type)
       (String "195" (String "169" (String Ascii.zero "gus")))) None
  = Some (Python.mkPyErr Python.PyExc_ValueError
            ("Invalid Scan Consistency type " +:+ String "195" (String "169" "")))
  /\ String.prefix (String "195" (String "169" ""))
       (String "195" (String "169" (String Ascii.zero "gus"))) = true
  /\ Text.has_nul (String "195" (String "169" "")) = false
  /\ (Text.has_nul (String "195" (String "169" (String Ascii.zero "gus"))) = false ->
      String "195" (String "169" "")
      = String "195" (String "169" (String Ascii.zero "gus"))).
Proof.
  refine (str_to_scan_consistency_type_message
            (H := N1ql.query_scan_consistency_type)
            (String "195" (String "169" (String Ascii.zero "gus"))) None _ _ _).
  - discriminate.
  - discriminate.
  - reflexivity.
Defined.

(** ** [AnalyticsManagementOperations] *)

Section OperationsProperties.
Import AnalyticsManagementOperations.

(** X5. [==] on [AnalyticsManagementOperations] holds exactly when the two
    objects are the same value, and [!=] exactly when they differ; so [==]
    is reflexive, symmetric and transitive. *)
Theorem op_eq_decides_equality (a b c : t) :
  (op_eq a b = true <-> a = b)
  /\ (op_ne a b = true <-> a <> b)
  /\ op_eq a a = true
  /\ op_eq a b = op_eq b a
  /\ (op_eq a b = true -> op_eq b c = true -> op_eq a c = true).
Proof.
  assert (Heq : forall x y : t, op_eq x y = true <-> x = y).
  { intros [x] [y]. unfold op_eq. simpl. rewrite enum_eq_true.
    split; [now intros -> | now intros [= ->]]. }
  split; [apply Heq|]. split.
  { unfold op_ne, enum_ne. fold (enum_eq (operation a) (operation b)).
    fold (op_eq a b). rewrite negb_true_iff, <- not_true_iff_false.
    now rewrite Heq. }
  split; [now apply Heq|]. split.
  { unfold op_eq, enum_eq. apply Z.eqb_sym. }
  intros Hab Hbc. apply Heq in Hab, Hbc. apply Heq. congruence.
Qed.

(** X6. An object built from any of the fifteen kinds other than [UNKNOWN]
    never compares equal to a default-constructed one, in either order, and
    converts back to the kind it was built from. *)
Theorem constructed_kind_differs_from_default (op : OperationType) :
  op <> UNKNOWN ->
  op_eq (ctor op) default_ctor = false
  /\ op_eq default_ctor (ctor op) = false
  /\ op_ne (ctor op) default_ctor = true
  /\ op_ne default_ctor (ctor op) = true
  /\ to_OperationType (ctor op) = op.
Proof.
  intros Hop. destruct op; [now destruct Hop | repeat split ..].
Qed.

Lemma words_of_ALL_OPERATIONS :
  Text.words ALL_OPERATIONS
  = [ "CREATE_DATAVERSE"; "CREATE_DATASET"; "CREATE_INDEX"; "GET_ALL_DATASETS";
      "GET_ALL_INDEXES"; "DROP_DATAVERSE"; "DROP_DATASET"; "DROP_INDEX";
      "GET_PENDING_MUTATIONS"; "LINK_CREATE"; "LINK_CONNECT"; "GET_ALL_LINKS";
      "LINK_DISCONNECT"; "LINK_REPLACE"; "DROP_LINK" ].
Proof. vm_compute. reflexivity. Qed.

(** X7. Split at its spaces, [ALL_OPERATIONS] lists the kinds by their
    underlying values: the word at position [i], counting from zero, is the
    identifier of a kind exactly when that kind's underlying value is
    [i + 1]. Counting the words from one thus reproduces the values of the
    enumeration, the sentinel's zero being left out. *)
Theorem ALL_OPERATIONS_word_positions (op : OperationType) (i : nat) :
  nth_error (Text.words ALL_OPERATIONS) i = Some (identifier op)
  <-> underlying op = Z.of_nat i + 1.
Proof.
  rewrite words_of_ALL_OPERATIONS.
  do 15 (destruct i as [|i];
         [destruct op; cbn [nth_error identifier underlying];
          split; intros E; solve [reflexivity | discriminate E | lia] |]).
  destruct op; cbn [nth_error identifier underlying];
    split; intros E; solve [destruct i; discriminate E | lia].
Qed.

End OperationsProperties.

Lemma constructed_kind_differs_from_default_witness :
  AnalyticsManagementOperations.op_eq
    (AnalyticsManagementOperations.ctor AnalyticsManagementOperations.DROP_LINK)
    AnalyticsManagementOperations.default_ctor = false
  /\ AnalyticsManagementOperations.op_eq
       AnalyticsManagementOperations.default_ctor
       (AnalyticsManagementOperations.ctor AnalyticsManagementOperations.DROP_LINK)
     = false
  /\ AnalyticsManagementOperations.op_ne
       (AnalyticsManagementOperations.ctor AnalyticsManagementOperations.DROP_LINK)
       AnalyticsManagementOperations.default_ctor = true
  /\ AnalyticsManagementOperations.op_ne
       AnalyticsManagementOperations.default_ctor
       (AnalyticsManagementOperations.ctor AnalyticsManagementOperations.DROP_LINK)
     = true
  /\ AnalyticsManagementOperations.to_OperationType
       (AnalyticsManagementOperations.ctor AnalyticsManagementOperations.DROP_LINK)
     = AnalyticsManagementOperations.DROP_LINK.
Proof.
  refine (constructed_kind_differs_from_default
            AnalyticsManagementOperations.DROP_LINK _).
  discriminate.
Defined.
